(** * Glucommander IV insulin infusion calculator

    A shallow embedding of the two calculators of the repository,
    [infusion.py] (module [Infusion]) and [iv_insulin_calculator.py]
    (module [Legacy]), and the properties of their dosing formulas.

    Numbers.  The Python code computes on [float].  Here a float is
    idealised as an exact rational ([Q]): the literals [0.02], [0.014],
    [110.1] denote the decimal fractions they spell, arithmetic is
    exact, and [round(x, 1)] rounds the exact value to the nearest
    tenth, ties to the even tenth.  Equal rationals may have different
    representations, so numeric results are compared with [==] unless
    both sides are built the same way.  Binary representation error,
    infinities and NaN are outside the model: where the float the program
    rounds lies on the other side of a tie from the exact value, the two
    results differ by a tenth (at 255 mg/dL the initial dose is 2.5 in the
    program and 2.6 here).  The theorems therefore state branch selection,
    orderings and bounds, which rest on the comparisons and on the
    monotonicity of the operations. *)

From Stdlib Require Import ZArith QArith Qround Qabs Lqa Lia Bool.

Open Scope Q_scope.

(** ** The Python primitives the calculators use *)

Module Py.

(** Comparison operators on numbers, as booleans. *)
Definition leb (x y : Q) : bool := Qle_bool x y.
Definition ltb (x y : Q) : bool := negb (Qle_bool y x).
Definition geb (x y : Q) : bool := leb y x.
Definition gtb (x y : Q) : bool := ltb y x.
Definition eqb (x y : Q) : bool := Qeq_bool x y.

(** Truth value of a number in a condition: [if x:] holds unless
    [x] is zero. *)
Definition truthy (x : Q) : bool := negb (Qeq_bool x 0).

(** [max(a, b)]: the first argument unless the second is larger. *)
Definition max (a b : Q) : Q := if ltb a b then b else a.

(** Rounding to the nearest integer, ties to even: [round(x)]. *)
Definition round (x : Q) : Z :=
  let f := Qfloor x in
  match Qcompare (x - inject_Z f) 0.5%Q with
  | Lt => f
  | Gt => (f + 1)%Z
  | Eq => if Z.even f then f else (f + 1)%Z
  end.

(** [round(x, 1)]: the nearest tenth, kept as a number of tenths over
    the denominator 10. *)
Definition round1 (x : Q) : Q := round (x * 10) # 10.

(** Exceptions.  The only operation of the calculators that can raise
    is the division [/], on a zero divisor. *)
Inductive exn : Set := ZeroDivisionError.

Inductive result (A : Type) : Type :=
| Returned (a : A)
| Raised (e : exn).

Arguments Returned {A} a.
Arguments Raised {A} e.

Definition bind {A B : Type} (r : result A) (k : A -> result B) : result B :=
  match r with
  | Returned a => k a
  | Raised e => Raised e
  end.

Definition div (a b : Q) : result Q :=
  if Qeq_bool b 0 then Raised ZeroDivisionError else Returned (a / b).

(** A call fails when it raises, whatever the exception. *)
Definition fails {A : Type} (r : result A) : Prop := exists e, r = Raised e.

End Py.

Notation "x <- r ;; k" := (Py.bind r (fun x => k))
  (at level 61, r at next level, right associativity).

Infix "<?" := Py.ltb (at level 70, no associativity) : Q_scope.
Infix "<=?" := Py.leb (at level 70, no associativity) : Q_scope.
Infix ">=?" := Py.geb (at level 70, no associativity) : Q_scope.
Infix ">?" := Py.gtb (at level 70, no associativity) : Q_scope.

Import Py (Returned, Raised).

(** ** infusion.py *)

Module Infusion.

(** [calc_initial_rate_and_bolus(bg)]: the pair (bolus, rate). *)
Definition calc_initial_rate_and_bolus (bg : Q) : Py.result (Q * Q) :=
  let divisor := if bg >=? 300 then 70 else 100 in
  q <- Py.div bg divisor ;;
  let bolus := Py.round1 q in
  let rate := bolus in
  Returned (bolus, rate).

(** The blocks of [calc_ongoing_rate], in the order of the source. *)

Definition delta (curr_bg prev_bg : Q) : Q := prev_bg - curr_bg.

(** The if-chain on the glucose band.  The last branch is an [else]:
    it takes every reading outside [110, 250). *)
Inductive band : Set := B110_140 | B140_180 | B180_250 | BElse.

Definition band_of (curr_bg : Q) : band :=
  if (110 <=? curr_bg) && (curr_bg <? 140) then B110_140
  else if (140 <=? curr_bg) && (curr_bg <? 180) then B140_180
  else if (180 <=? curr_bg) && (curr_bg <? 250) then B180_250
  else BElse.

Definition band_multiplier (b : band) : Q :=
  match b with
  | B110_140 => 0.02
  | B140_180 => 0.02
  | B180_250 => 0.02
  | BElse => 0.03
  end.

Definition base_m (curr_bg : Q) : Q := band_multiplier (band_of curr_bg).

(** The adjustment for the rate of change. *)
Definition roc_m (curr_bg prev_bg : Q) : Q :=
  let delta := delta curr_bg prev_bg in
  if delta >=? 40 then 0.014
  else if delta <=? 0 then 0.03
  else base_m curr_bg.

(** The guard of the rule for persistent hyperglycaemia. *)
Definition escalates (curr_bg prev_bg : Q) : bool :=
  (curr_bg >=? 180) && (delta curr_bg prev_bg <=? 10).

(** The multiplier [m] that reaches the final product. *)
Definition final_m (curr_bg prev_bg last_rate : Q) : Py.result Q :=
  let m := roc_m curr_bg prev_bg in
  if escalates curr_bg prev_bg then
    q <- Py.div last_rate (Py.max (curr_bg - 60) 1) ;;
    let adaptive_m := q + 0.01 in
    Returned (Py.max m adaptive_m)
  else Returned m.

Definition calc_ongoing_rate (curr_bg prev_bg last_rate : Q) : Py.result Q :=
  if curr_bg <? 70 then Returned 0
  else
    m <- final_m curr_bg prev_bg last_rate ;;
    let new_rate := (curr_bg - 60) * m in
    Returned (Py.round1 (Py.max new_rate 0)).

(** The page.  Each mode reads its number inputs (declared with
    [min_value=0.0]) and shows at most one message. *)
Inductive message : Type :=
| GiveBolusThenStart (bolus rate : Q)
| Hypoglycaemia
| SetPump (new_rate delta : Q).

Definition start_mode (init_bg : Q) : Py.result (option message) :=
  if Py.truthy init_bg then
    br <- calc_initial_rate_and_bolus init_bg ;;
    Returned (Some (GiveBolusThenStart (fst br) (snd br)))
  else Returned None.

Definition adjust_mode (curr_bg prev_bg last_rate : Q)
  : Py.result (option message) :=
  if Py.truthy curr_bg && Py.truthy prev_bg && Py.truthy last_rate then
    new_rate <- calc_ongoing_rate curr_bg prev_bg last_rate ;;
    if Py.eqb new_rate 0 && (curr_bg <? 70) then Returned (Some Hypoglycaemia)
    else Returned (Some (SetPump new_rate (prev_bg - curr_bg)))
  else Returned None.

End Infusion.

(** ** iv_insulin_calculator.py *)

Module Legacy.

(** The script has no functions: it reads four number inputs [A], [B], [C]
    and [last_rate] and writes one of three pages.  A number input always
    yields a number, so the test [last_rate is not None] holds. *)

Inductive recheck : Set := Minutes15 | Minutes30.

Inductive comment : Type :=
| NoComment
| GiveDextrose (ml : Q)
| ConsiderDextrose.

(** The variables the ongoing branch assigns: [new_rate] starts as [None],
    [comment] as the empty string, [next_check] is unbound. *)
Record ongoing : Type := mkOngoing {
  new_rate : option Q;
  note : comment;
  next_check : option recheck
}.

Definition rate_only (r : Q) : ongoing := mkOngoing (Some r) NoComment None.

(** The initial branch: the bolus is rounded to an integer, the rate to
    one decimal. *)
Definition initial (A : Q) : Py.result (Z * Q) :=
  bolus <- (if A <? 300
            then q <- Py.div A 100 ;; Returned (Py.round q)
            else q <- Py.div A 70 ;; Returned (Py.round q)) ;;
  rate <- (if A <? 300
           then q <- Py.div A 100 ;; Returned (Py.round1 q)
           else q <- Py.div A 70 ;; Returned (Py.round1 q)) ;;
  Returned (bolus, rate).

(** The two middle bands share one table on [delta]. *)
Definition mid_band (B delta : Q) : ongoing :=
  if delta >=? 1 then rate_only ((B - 60) * 0.03)
  else if (0 >=? delta) && (delta >=? -20) then rate_only ((B - 60) * 0.02)
  else if (-20.1 >=? delta) && (delta >=? -40) then rate_only ((B - 60) * 0.014)
  else mkOngoing (Some 0) NoComment (Some Minutes30).

Definition adaptive (B last_rate : Q) : Py.result ongoing :=
  q <- Py.div last_rate (B - 60) ;;
  Returned (rate_only ((B - 60) * (q + 0.01))).

Definition titrate (B C last_rate : Q) : Py.result ongoing :=
  let delta := B - C in
  if B <? 70 then
    let dextrose := Py.round1 ((100 - B) * 0.3) in
    Returned (mkOngoing (Some 0) (GiveDextrose dextrose) (Some Minutes15))
  else if (70 <=? B) && (B <=? 110) then
    Returned (mkOngoing (Some 0) ConsiderDextrose (Some Minutes30))
  else if (110.1 <=? B) && (B <=? 139) then Returned (mid_band B delta)
  else if (139.1 <=? B) && (B <=? 179) then Returned (mid_band B delta)
  else if (179.1 <=? B) && (B <=? 249) then
    if delta >=? -10 then adaptive B last_rate
    else if (-11 >=? delta) && (delta >=? -40)
      then Returned (rate_only ((B - 60) * 0.03))
    else if (-41 >=? delta) && (delta >=? -80)
      then Returned (rate_only ((B - 60) * 0.02))
    else Returned (rate_only ((B - 60) * 0.014))
  else if B >? 249 then
    if delta >=? -40 then adaptive B last_rate
    else if (-41 >=? delta) && (delta >=? -80)
      then Returned (rate_only ((B - 60) * 0.03))
    else if (-81 >=? delta) && (delta >=? -120)
      then Returned (rate_only ((B - 60) * 0.02))
    else Returned (rate_only ((B - 60) * 0.014))
  else Returned (mkOngoing None NoComment None).

(** What the script writes. *)
Inductive page : Type :=
| InitialPage (bolus : Z) (rate : Q)
| OngoingPage (shown_rate : option Q) (c : comment) (next : option recheck)
| InfoPage.

Definition script (A B C last_rate : Q) : Py.result page :=
  if Py.truthy A then
    br <- initial A ;;
    Returned (InitialPage (fst br) (snd br))
  else if Py.truthy B && Py.truthy C then
    o <- titrate B C last_rate ;;
    Returned (OngoingPage (option_map Py.round1 (new_rate o))
                          (note o) (next_check o))
  else Returned InfoPage.

End Legacy.

Example initial_256 :
  Infusion.calc_initial_rate_and_bolus 256 = Returned (2.6, 2.6).
Proof. reflexivity. Qed.

Example initial_310 :
  Infusion.calc_initial_rate_and_bolus 310 = Returned (4.4, 4.4).
Proof. reflexivity. Qed.

Example ongoing_65 :
  Infusion.calc_ongoing_rate 65 120 2.5 = Returned 0.
Proof. reflexivity. Qed.

Example ongoing_200 :
  Infusion.calc_ongoing_rate 200 205 3 = Returned 4.4.
Proof. reflexivity. Qed.

Example legacy_initial_256 : Legacy.initial 256 = Returned (3%Z, 2.6).
Proof. reflexivity. Qed.

Example legacy_hold_100 :
  Legacy.titrate 100 120 2 =
  Returned (Legacy.mkOngoing (Some 0) Legacy.ConsiderDextrose
                             (Some Legacy.Minutes30)).
Proof. reflexivity. Qed.

Example ongoing_100 :
  Infusion.calc_ongoing_rate 100 100 1 = Returned 1.2.
Proof. reflexivity. Qed.

(** ** Comparisons and [max] *)

Lemma leb_true x y : (x <=? y) = true <-> x <= y.
Proof. apply Qle_bool_iff. Qed.

Lemma leb_false x y : (x <=? y) = false <-> y < x.
Proof.
  unfold Py.leb. rewrite <- not_true_iff_false, Qle_bool_iff.
  split; [apply Qnot_le_lt | apply Qlt_not_le].
Qed.

Lemma ltb_true x y : (x <? y) = true <-> x < y.
Proof.
  unfold Py.ltb. rewrite negb_true_iff. apply leb_false.
Qed.

Lemma ltb_false x y : (x <? y) = false <-> y <= x.
Proof.
  unfold Py.ltb. rewrite negb_false_iff. apply Qle_bool_iff.
Qed.

(** Case analysis on every comparison in sight, each branch keeping the
    order fact it stands for. *)
Ltac order_case c :=
  let E := fresh "E" in
  destruct c eqn:E;
  [ first [ apply leb_true in E | apply ltb_true in E ]
  | first [ apply leb_false in E | apply ltb_false in E ] ].

Ltac order_cases :=
  repeat match goal with
  | |- context [ Py.leb ?a ?b ] => order_case (Py.leb a b)
  | |- context [ Py.ltb ?a ?b ] => order_case (Py.ltb a b)
  end.

Lemma max_cases a b :
  (a < b /\ Py.max a b = b) \/ (b <= a /\ Py.max a b = a).
Proof.
  unfold Py.max. order_case (a <? b); auto.
Qed.

Lemma max_l a b : a <= Py.max a b.
Proof. destruct (max_cases a b) as [[H ->] | [H ->]]; lra. Qed.

Lemma max_r a b : b <= Py.max a b.
Proof. destruct (max_cases a b) as [[H ->] | [H ->]]; lra. Qed.

Lemma max_mono a b c d : a <= c -> b <= d -> Py.max a b <= Py.max c d.
Proof.
  intros Hac Hbd.
  destruct (max_cases a b) as [[H ->] | [H ->]];
    destruct (max_cases c d) as [[H' ->] | [H' ->]]; lra.
Qed.

(** ** Rounding *)

Lemma floor_bounds x :
  inject_Z (Qfloor x) <= x /\ x < inject_Z (Qfloor x) + 1.
Proof.
  split; [apply Qfloor_le |].
  generalize (Qlt_floor x). rewrite inject_Z_plus. trivial.
Qed.

(** [round x] is an integer nearest to [x]. *)
Lemma round_near x :
  inject_Z (Py.round x) - 0.5 <= x /\ x <= inject_Z (Py.round x) + 0.5.
Proof.
  unfold Py.round. destruct (floor_bounds x) as [Hlo Hhi].
  destruct (Qcompare_spec (x - inject_Z (Qfloor x)) 0.5) as [H | H | H].
  - destruct (Z.even (Qfloor x)); rewrite ?inject_Z_plus;
      change (inject_Z 1) with 1; lra.
  - lra.
  - rewrite inject_Z_plus. change (inject_Z 1) with 1. lra.
Qed.

Lemma round_mono x y : x <= y -> (Py.round x <= Py.round y)%Z.
Proof.
  intros Hxy. pose proof (Qfloor_resp_le _ _ Hxy) as Hf.
  destruct (floor_bounds x) as [Hxl Hxh], (floor_bounds y) as [Hyl Hyh].
  unfold Py.round.
  destruct (Z.eq_dec (Qfloor x) (Qfloor y)) as [Heq | Hne].
  - rewrite <- Heq in *.
    destruct (Qcompare_spec (x - inject_Z (Qfloor x)) 0.5),
             (Qcompare_spec (y - inject_Z (Qfloor x)) 0.5);
      destruct (Z.even (Qfloor x)); try lia; lra.
  - assert (Qfloor x + 1 <= Qfloor y)%Z as Hlt by lia.
    destruct (Qcompare (x - inject_Z (Qfloor x)) 0.5),
             (Qcompare (y - inject_Z (Qfloor y)) 0.5);
      destruct (Z.even (Qfloor x)), (Z.even (Qfloor y)); lia.
Qed.

Lemma round_comp x y : x == y -> Py.round x = Py.round y.
Proof.
  intros H. apply Z.le_antisymm; apply round_mono; rewrite H; apply Qle_refl.
Qed.

Lemma round_0 : Py.round 0 = 0%Z.
Proof. reflexivity. Qed.

Lemma tenths_le (a b : Z) : (a <= b)%Z -> a # 10 <= b # 10.
Proof. unfold Qle. simpl. lia. Qed.

Lemma round1_mono x y : x <= y -> Py.round1 x <= Py.round1 y.
Proof.
  intros H. apply tenths_le, round_mono. lra.
Qed.

Lemma round1_comp x y : x == y -> Py.round1 x = Py.round1 y.
Proof.
  intros H. unfold Py.round1. f_equal. apply round_comp. now rewrite H.
Qed.

Lemma round1_nonneg x : 0 <= x -> 0 <= Py.round1 x.
Proof.
  intros H. apply Qle_trans with (Py.round1 0); [| now apply round1_mono].
  unfold Qle. simpl. lia.
Qed.

(** A rounded value is a whole number of tenths. *)
Lemma round1_tenths x : Py.round1 x == inject_Z (Py.round (x * 10)) * 0.1.
Proof.
  unfold Py.round1, Qeq. simpl. lia.
Qed.

(** It lies within half a tenth of its argument. *)
Lemma round1_near x : Qabs (Py.round1 x - x) <= 0.05.
Proof.
  rewrite round1_tenths. destruct (round_near (x * 10)) as [Hlo Hhi].
  apply Qabs_case; intros _; lra.
Qed.

(** ** Division never raises in the calculators *)

Lemma div_nonzero a b : ~ b == 0 -> Py.div a b = Returned (a / b).
Proof.
  intros H. unfold Py.div.
  destruct (Qeq_bool b 0) eqn:E; [| reflexivity].
  now apply Qeq_bool_eq in E.
Qed.

Lemma div_pos a b : 0 < b -> Py.div a b = Returned (a / b).
Proof. intros H. apply div_nonzero. lra. Qed.

Lemma escalation_divisor c : ~ Py.max (c - 60) 1 == 0.
Proof. pose proof (max_r (c - 60) 1). lra. Qed.

Lemma final_m_escalated c p l :
  Infusion.escalates c p = true ->
  Infusion.final_m c p l =
  Returned (Py.max (Infusion.roc_m c p) (l / Py.max (c - 60) 1 + 0.01)).
Proof.
  intros H. unfold Infusion.final_m. rewrite H.
  now rewrite (div_nonzero _ _ (escalation_divisor c)).
Qed.

Lemma final_m_plain c p l :
  Infusion.escalates c p = false ->
  Infusion.final_m c p l = Returned (Infusion.roc_m c p).
Proof. intros H. unfold Infusion.final_m. now rewrite H. Qed.

Lemma final_m_returns c p l : exists m, Infusion.final_m c p l = Returned m.
Proof.
  destruct (Infusion.escalates c p) eqn:E.
  - eexists. now apply final_m_escalated.
  - eexists. now apply final_m_plain.
Qed.

Lemma escalates_true c p :
  Infusion.escalates c p = true <-> 180 <= c /\ p - c <= 10.
Proof.
  unfold Infusion.escalates, Infusion.delta, Py.geb.
  now rewrite andb_true_iff, !leb_true.
Qed.

Lemma escalates_false c p :
  Infusion.escalates c p = false <-> c < 180 \/ 10 < p - c.
Proof.
  unfold Infusion.escalates, Infusion.delta, Py.geb.
  now rewrite andb_false_iff, !leb_false.
Qed.

Lemma ongoing_from_70 c p l :
  70 <= c ->
  Infusion.calc_ongoing_rate c p l =
  m <- Infusion.final_m c p l ;;
  Returned (Py.round1 (Py.max ((c - 60) * m) 0)).
Proof.
  intros H. unfold Infusion.calc_ongoing_rate.
  now rewrite (proj2 (ltb_false c 70) H).
Qed.

(** ** The hypoglycaemia gate *)




(** ** The initial dose *)

(** C2.  For a reading [bg >= 0] the initial dose is [round(bg/70, 1)] from
    300 mg/dL on and [round(bg/100, 1)] below, and the rate returned is the
    bolus. *)
Theorem initial_dose_formula bg :
  0 <= bg ->
  (300 <= bg ->
   Infusion.calc_initial_rate_and_bolus bg =
   Returned (Py.round1 (bg / 70), Py.round1 (bg / 70)))
  /\ (bg < 300 ->
      Infusion.calc_initial_rate_and_bolus bg =
      Returned (Py.round1 (bg / 100), Py.round1 (bg / 100)))
  /\ exists bolus rate,
      Infusion.calc_initial_rate_and_bolus bg = Returned (bolus, rate)
      /\ rate = bolus.
Proof.
  intros _. unfold Infusion.calc_initial_rate_and_bolus, Py.geb.
  repeat split.
  - intros H. apply leb_true in H. now rewrite H.
  - intros H. apply leb_false in H. now rewrite H.
  - destruct (300 <=? bg); eexists; eexists; split; reflexivity.
Qed.

Lemma initial_dose_formula_witness :
  Infusion.calc_initial_rate_and_bolus 310 = Returned (4.4, 4.4)
  /\ Infusion.calc_initial_rate_and_bolus 256 = Returned (2.6, 2.6).
Proof.
  split.
  - assert (0 <= 310) as H0 by discriminate.
    assert (300 <= 310) as H by discriminate.
    exact (proj1 (initial_dose_formula 310 H0) H).
  - assert (0 <= 256) as H0 by discriminate.
    assert (256 < 300) as H by reflexivity.
    exact (proj1 (proj2 (initial_dose_formula 256 H0)) H).
Defined.

(** Negative readings get no special treatment.

    C6 (as amended).  [calc_initial_rate_and_bolus] validates nothing: a
    negative reading takes the [else] branch like any reading below 300 and
    the call returns the pair of [round(bg/100, 1)] with itself; it raises
    no exception. *)
Theorem initial_dose_negative bg :
  bg < 0 ->
  Infusion.calc_initial_rate_and_bolus bg =
  Returned (Py.round1 (bg / 100), Py.round1 (bg / 100))
  /\ ~ Py.fails (Infusion.calc_initial_rate_and_bolus bg).
Proof.
  intros H.
  assert (Infusion.calc_initial_rate_and_bolus bg =
          Returned (Py.round1 (bg / 100), Py.round1 (bg / 100))) as Hret.
  { unfold Infusion.calc_initial_rate_and_bolus, Py.geb.
    assert ((300 <=? bg) = false) as -> by (apply leb_false; lra).
    reflexivity. }
  split; [exact Hret |].
  intros [e He]. rewrite Hret in He. discriminate He.
Qed.

Lemma initial_dose_negative_witness :
  Infusion.calc_initial_rate_and_bolus (-50) = Returned (-0.5, -0.5).
Proof.
  assert (-50 < 0) as H by reflexivity.
  exact (proj1 (initial_dose_negative (-50) H)).
Defined.

(** C6 (as stated) fails: the call on -5 returns, it does not fail. *)
Lemma initial_dose_minus_5_returns :
  ~ Py.fails (Infusion.calc_initial_rate_and_bolus (-5)).
Proof.
  intros [e He]. discriminate He.
Qed.

(** The page computes nothing on a blank or zero reading. *)
Lemma start_mode_blank : Infusion.start_mode 0 = Returned None.
Proof. reflexivity. Qed.

(** ** The two variants of the initial dose *)

(** C9.  The two calculators disagree on the initial bolus: at 256 mg/dL
    the older script gives the integer 3, [calc_initial_rate_and_bolus]
    gives 2.6; they agree on the rate. *)
Theorem initial_bolus_variants_differ :
  exists bg b_old r_old b r,
    0 <= bg
    /\ Legacy.initial bg = Returned (b_old, r_old)
    /\ Infusion.calc_initial_rate_and_bolus bg = Returned (b, r)
    /\ ~ inject_Z b_old == b
    /\ bg = 256 /\ b_old = 3%Z /\ b = 2.6 /\ r_old = r.
Proof.
  exists 256, 3%Z, 2.6, 2.6, 2.6.
  repeat split; discriminate.
Qed.

(** ** The band from 70 to 110 mg/dL *)

(** Readings below 110 reach the last branch of the band chain. *)
Lemma band_below_110 c : c < 110 -> Infusion.band_of c = Infusion.BElse.
Proof.
  intros H. unfold Infusion.band_of.
  order_cases; simpl; try reflexivity; lra.
Qed.

(** The older script holds the infusion on the whole band. *)
Lemma legacy_hold_band B C l :
  70 <= B <= 110 ->
  Legacy.titrate B C l =
  Returned (Legacy.mkOngoing (Some 0) Legacy.ConsiderDextrose
              (Some Legacy.Minutes30)).
Proof.
  intros [Hlo Hhi]. unfold Legacy.titrate.
  rewrite (proj2 (ltb_false B 70) Hlo).
  rewrite (proj2 (leb_true 70 B) Hlo), (proj2 (leb_true B 110) Hhi).
  reflexivity.
Qed.

(** C3, on the input where it fails.  At 100 mg/dL, fallen from 120,
    [calc_ongoing_rate] takes the last branch of the band chain, whose
    multiplier is 0.03, and returns 1.2 U/h; the older script holds at 0
    with a recheck in 30 minutes. *)
Theorem hold_band_at_100 :
  Infusion.band_of 100 = Infusion.BElse
  /\ Infusion.base_m 100 = 0.03
  /\ Infusion.calc_ongoing_rate 100 120 1 = Returned 1.2
  /\ Legacy.titrate 100 120 1 =
     Returned (Legacy.mkOngoing (Some 0) Legacy.ConsiderDextrose
                 (Some Legacy.Minutes30)).
Proof. repeat split. Qed.

(** ** The multiplier *)

(** The base multiplier over the bands of the chain. *)
Lemma base_m_table c :
  (c < 110 -> Infusion.base_m c = 0.03)
  /\ (110 <= c < 250 -> Infusion.base_m c = 0.02)
  /\ (250 <= c -> Infusion.base_m c = 0.03).
Proof.
  unfold Infusion.base_m, Infusion.band_of.
  repeat split; intros H; order_cases; simpl; try reflexivity; lra.
Qed.

Lemma roc_m_cases c p :
  (40 <= p - c -> Infusion.roc_m c p = 0.014)
  /\ (p - c <= 0 -> Infusion.roc_m c p = 0.03)
  /\ (0 < p - c < 40 -> Infusion.roc_m c p = Infusion.base_m c).
Proof.
  unfold Infusion.roc_m, Infusion.delta, Py.geb.
  repeat split; intros H; order_cases; try reflexivity; lra.
Qed.

(** The rate-of-change table from 110 mg/dL on, off the escalation rule,
    with the base multiplier of each band written out. *)
Lemma override_from_110 c p l :
  110 <= c ->
  c < 180 \/ 10 < p - c ->
  exists m,
    Infusion.final_m c p l = Returned m
    /\ (40 <= p - c -> m = 0.014)
    /\ (p - c <= 0 -> m = 0.03)
    /\ (0 < p - c < 40 -> c < 250 -> m = 0.02)
    /\ (0 < p - c < 40 -> 250 <= c -> m = 0.03)
    /\ Infusion.calc_ongoing_rate c p l =
       Returned (Py.round1 (Py.max ((c - 60) * m) 0)).
Proof.
  intros H110 Hoff. apply escalates_false in Hoff.
  assert (70 <= c) as H70 by lra.
  exists (Infusion.roc_m c p).
  destruct (roc_m_cases c p) as [Hfast [Hflat Hgentle]].
  destruct (base_m_table c) as [_ [Hmid Hhigh]].
  rewrite (ongoing_from_70 _ _ _ H70), (final_m_plain _ _ _ Hoff).
  repeat split; try assumption.
  - intros Hd Hc. rewrite (Hgentle Hd). apply Hmid. lra.
  - intros Hd Hc. rewrite (Hgentle Hd). now apply Hhigh.
Qed.

(** C4, on the input where it fails.  At 100 mg/dL, fallen by 20 from 120,
    the escalation rule is off and the fall is a gentle one, so the
    multiplier should be the base multiplier of the band from 70 to 110,
    which is 0 and gives the rate 0.  The chain has no branch for that band:
    the multiplier that reaches the product is 0.03 and the rate is 1.2. *)
Theorem gentle_fall_at_100 :
  70 <= 100 <= 110
  /\ 0 < 120 - 100 < 40
  /\ Infusion.escalates 100 120 = false
  /\ Infusion.final_m 100 120 1 = Returned 0.03
  /\ Infusion.calc_ongoing_rate 100 120 1 = Returned 1.2
  /\ Py.round1 (Py.max ((100 - 60) * 0) 0) == 0
  /\ ~ 1.2 == 0.
Proof.
  split; [split; discriminate |]. split; [split; reflexivity |].
  split; [reflexivity |]. split; [reflexivity |]. split; [reflexivity |].
  split; [reflexivity | discriminate].
Qed.

(** C5.  At 180 mg/dL or more with a fall of at most 10, the multiplier of
    the final product is the larger of the rate-of-change multiplier and
    [last_rate / max(curr_bg - 60, 1) + 0.01].  The reading 200 after 205 at
    3 U/h is such a case, and its new rate, 4.4 U/h, is not below
    [(200 - 60) * 0.03]. *)
Theorem persistent_hyperglycaemia_escalation curr_bg prev_bg last_rate :
  180 <= curr_bg ->
  prev_bg - curr_bg <= 10 ->
  let m := Infusion.roc_m curr_bg prev_bg in
  let adaptive_m := last_rate / Py.max (curr_bg - 60) 1 + 0.01 in
  Infusion.final_m curr_bg prev_bg last_rate = Returned (Py.max m adaptive_m)
  /\ Infusion.calc_ongoing_rate curr_bg prev_bg last_rate =
     Returned (Py.round1 (Py.max ((curr_bg - 60) * Py.max m adaptive_m) 0))
  /\ Infusion.escalates 200 205 = true
  /\ Infusion.calc_ongoing_rate 200 205 3 = Returned 4.4
  /\ (200 - 60) * 0.03 <= 4.4.
Proof.
  intros H180 Hflat m adaptive_m.
  assert (Infusion.escalates curr_bg prev_bg = true) as Hesc
    by now apply escalates_true.
  assert (70 <= curr_bg) as H70 by lra.
  rewrite (ongoing_from_70 _ _ _ H70), (final_m_escalated _ _ _ Hesc).
  repeat split. discriminate.
Qed.

Lemma persistent_hyperglycaemia_escalation_witness :
  Infusion.final_m 200 205 3 =
  Returned (Py.max (Infusion.roc_m 200 205) (3 / Py.max (200 - 60) 1 + 0.01)).
Proof.
  assert (180 <= 200) as H180 by discriminate.
  assert (205 - 200 <= 10) as Hflat by discriminate.
  exact (proj1 (persistent_hyperglycaemia_escalation 200 205 3 H180 Hflat)).
Defined.

(** On the escalation path the pump rate does reach the result. *)
Example escalation_depends_on_last_rate :
  Infusion.calc_ongoing_rate 200 205 0 = Returned 2.8
  /\ Infusion.calc_ongoing_rate 200 205 3 = Returned 4.4.
Proof. split; reflexivity. Qed.

(** ** The rate returned *)

Lemma ongoing_returns c p l :
  exists r, Infusion.calc_ongoing_rate c p l = Returned r
            /\ 0 <= r
            /\ exists k : Z, r == inject_Z k * 0.1.
Proof.
  unfold Infusion.calc_ongoing_rate.
  destruct (c <? 70).
  - exists 0. repeat split; [lra |]. exists 0%Z. reflexivity.
  - destruct (final_m_returns c p l) as [m ->]. simpl.
    eexists. split; [reflexivity |]. split.
    + apply round1_nonneg, max_r.
    + eexists. apply round1_tenths.
Qed.

(** C7.  For non-negative inputs the rate returned by [calc_ongoing_rate] is
    non-negative and a whole number of tenths; from 70 mg/dL on it is the
    product [(curr_bg - 60) * m], floored at 0 and rounded to one decimal. *)
Theorem rate_nonnegative_tenths curr_bg prev_bg last_rate :
  0 <= curr_bg -> 0 <= prev_bg -> 0 <= last_rate ->
  exists r,
    Infusion.calc_ongoing_rate curr_bg prev_bg last_rate = Returned r
    /\ 0 <= r
    /\ (exists k : Z, r == inject_Z k * 0.1)
    /\ (70 <= curr_bg ->
        exists m, Infusion.final_m curr_bg prev_bg last_rate = Returned m
                  /\ r = Py.round1 (Py.max ((curr_bg - 60) * m) 0)).
Proof.
  intros _ _ _.
  destruct (ongoing_returns curr_bg prev_bg last_rate) as [r [Hr [Hpos Hk]]].
  exists r. repeat split; try assumption.
  intros H70. rewrite (ongoing_from_70 _ _ _ H70) in Hr.
  destruct (final_m_returns curr_bg prev_bg last_rate) as [m Hm].
  exists m. split; [exact Hm |].
  rewrite Hm in Hr. simpl in Hr. now injection Hr as <-.
Qed.

Lemma rate_nonnegative_tenths_witness :
  exists r,
    Infusion.calc_ongoing_rate 150 160 2 = Returned r
    /\ 0 <= r
    /\ (exists k : Z, r == inject_Z k * 0.1)
    /\ (70 <= 150 ->
        exists m, Infusion.final_m 150 160 2 = Returned m
                  /\ r = Py.round1 (Py.max ((150 - 60) * m) 0)).
Proof.
  assert (0 <= 150) as Hc by discriminate.
  assert (0 <= 160) as Hp by discriminate.
  assert (0 <= 2) as Hl by discriminate.
  exact (rate_nonnegative_tenths 150 160 2 Hc Hp Hl).
Defined.

(** ** The role of the pump rate *)

(** C10.  Off the escalation rule (below 180 mg/dL, or a fall of more than
    10) two calls that differ only in [last_rate] return the same rate. *)
Theorem last_rate_noninterference curr_bg prev_bg last_rate last_rate' :
  0 <= last_rate -> 0 <= last_rate' ->
  curr_bg < 180 \/ 10 < prev_bg - curr_bg ->
  Infusion.calc_ongoing_rate curr_bg prev_bg last_rate =
  Infusion.calc_ongoing_rate curr_bg prev_bg last_rate'.
Proof.
  intros _ _ Hoff. apply escalates_false in Hoff.
  unfold Infusion.calc_ongoing_rate.
  now rewrite !(final_m_plain _ _ _ Hoff).
Qed.

Lemma last_rate_noninterference_witness :
  Infusion.calc_ongoing_rate 150 160 2 = Infusion.calc_ongoing_rate 150 160 9.
Proof.
  assert (0 <= 2) as H by discriminate.
  assert (0 <= 9) as H' by discriminate.
  assert (150 < 180 \/ 10 < 160 - 150) as Hoff by (left; reflexivity).
  exact (last_rate_noninterference 150 160 2 9 H H' Hoff).
Defined.

(** ** Products *)

Lemma product_le a b m n :
  0 <= a -> a <= b -> 0 <= m -> m <= n -> a * m <= b * n.
Proof.
  intros Ha Hab Hm Hmn.
  apply Qle_trans with (b * m).
  - now apply Qmult_le_compat_r.
  - rewrite !(Qmult_comm b). apply Qmult_le_compat_r; lra.
Qed.

(** On the escalation path the final product is the larger of the plain
    product and [last_rate + 0.01 * (curr_bg - 60)]. *)
Lemma escalated_product c l m :
  180 <= c ->
  let f := (c - 60) * Py.max m (l / Py.max (c - 60) 1 + 0.01) in
  (c - 60) * m <= f
  /\ l + 0.01 * (c - 60) <= f
  /\ (f == (c - 60) * m \/ f == l + 0.01 * (c - 60)).
Proof.
  intros H180 f. subst f.
  assert (Py.max (c - 60) 1 = c - 60) as ->.
  { unfold Py.max. now rewrite (proj2 (ltb_false (c - 60) 1)) by lra. }
  set (a := l / (c - 60) + 0.01).
  assert ((c - 60) * a == l + 0.01 * (c - 60)) as Ha
    by (unfold a; field; lra).
  assert (0 < c - 60) as Hpos by lra.
  destruct (max_cases m a) as [[Hlt ->] | [Hle ->]].
  - rewrite Ha. repeat split; [| lra | right; reflexivity].
    rewrite <- Ha. apply Qmult_le_l; [exact Hpos | lra].
  - repeat split; [lra | | left; reflexivity].
    rewrite <- Ha. apply Qmult_le_l; [exact Hpos | exact Hle].
Qed.

(** ** The rate across the edge at 110 mg/dL *)

(** C8, on the readings where it fails.  109 and 110 both lie in the band
    from 70 to 110, where the rate should be held; the chain has no branch
    for that band, 109 reaches its last branch (0.03) and 110 its first
    (0.02), so with a fall of 20 at both (or the previous reading 129 at
    both) the rate drops from 1.5 to 1.0 U/h as the reading rises. *)
Lemma rate_drops_at_110 :
  70 < 109 /\ 109 < 110 /\ 110 <= 110
  /\ 129 - 109 == 130 - 110
  /\ Infusion.calc_ongoing_rate 109 129 1 = Returned 1.5
  /\ Infusion.calc_ongoing_rate 110 130 1 = Returned 1.0
  /\ Infusion.calc_ongoing_rate 110 129 1 = Returned 1.0
  /\ ~ 1.5 <= 1.0.
Proof.
  split; [reflexivity |]. split; [reflexivity |]. split; [discriminate |].
  split; [reflexivity |]. split; [reflexivity |]. split; [reflexivity |].
  split; [reflexivity |].
  intros H. apply H. reflexivity.
Qed.

(** ** Further properties of [calc_ongoing_rate] *)

Lemma roc_m_range c p : 0.014 <= Infusion.roc_m c p <= 0.03.
Proof.
  unfold Infusion.roc_m, Infusion.base_m.
  destruct (_ >=? _); [split; discriminate |].
  destruct (_ <=? _); [split; discriminate |].
  destruct (Infusion.band_of c); split; discriminate.
Qed.

Lemma final_m_floor c p l m :
  Infusion.final_m c p l = Returned m -> 0.014 <= m.
Proof.
  intros Hm. destruct (roc_m_range c p) as [Hlo _].
  destruct (Infusion.escalates c p) eqn:E.
  - rewrite (final_m_escalated _ _ _ E) in Hm. injection Hm as <-.
    pose proof (max_l (Infusion.roc_m c p) (l / Py.max (c - 60) 1 + 0.01)).
    lra.
  - rewrite (final_m_plain _ _ _ E) in Hm. injection Hm as <-. exact Hlo.
Qed.

Lemma max_nonneg_l x : 0 <= x -> Py.max x 0 = x.
Proof.
  intros H. unfold Py.max. now rewrite (proj2 (ltb_false x 0) H).
Qed.

(** X1.  [calc_ongoing_rate] stops the pump exactly on the hypoglycaemia
    gate: the rate returned is 0 when the reading is below 70 mg/dL and at
    least 0.1 U/h from 70 on, whatever the previous reading and the pump
    rate. *)
Theorem ongoing_rate_zero_only_below_70 curr_bg prev_bg last_rate :
  exists r,
    Infusion.calc_ongoing_rate curr_bg prev_bg last_rate = Returned r
    /\ (r == 0 <-> curr_bg < 70)
    /\ (70 <= curr_bg -> 0.1 <= r).
Proof.
  destruct (Qlt_le_dec curr_bg 70) as [Hlow | H70].
  - exists 0. split; [| split].
    + unfold Infusion.calc_ongoing_rate.
      now rewrite (proj2 (ltb_true curr_bg 70) Hlow).
    + split; [intros _; exact Hlow | reflexivity].
    + intros H. lra.
  - rewrite (ongoing_from_70 _ _ _ H70).
    destruct (final_m_returns curr_bg prev_bg last_rate) as [m Hm].
    rewrite Hm. simpl. eexists. split; [reflexivity |].
    pose proof (final_m_floor _ _ _ _ Hm) as Hfloor.
    assert (0.1 <= Py.round1 (Py.max ((curr_bg - 60) * m) 0)) as Hr.
    { apply Qle_trans with (Py.round1 0.14); [discriminate |].
      apply round1_mono.
      apply Qle_trans with ((curr_bg - 60) * m); [| apply max_l].
      setoid_replace 0.14 with (10 * 0.014) by reflexivity.
      apply product_le; lra. }
    split; [| intros _; exact Hr].
    split; intros H; lra.
Qed.

(** X2.  Off the escalation rule the multiplier stays between 0.014 and
    0.03, so from 70 mg/dL on the rate lies between the two products
    [(curr_bg - 60) * 0.014] and [(curr_bg - 60) * 0.03], each rounded to one
    decimal. *)
Theorem ongoing_rate_bounds curr_bg prev_bg last_rate :
  70 <= curr_bg ->
  curr_bg < 180 \/ 10 < prev_bg - curr_bg ->
  exists r,
    Infusion.calc_ongoing_rate curr_bg prev_bg last_rate = Returned r
    /\ Py.round1 ((curr_bg - 60) * 0.014) <= r
    /\ r <= Py.round1 ((curr_bg - 60) * 0.03).
Proof.
  intros H70 Hoff. apply escalates_false in Hoff.
  rewrite (ongoing_from_70 _ _ _ H70), (final_m_plain _ _ _ Hoff). simpl.
  eexists. split; [reflexivity |].
  destruct (roc_m_range curr_bg prev_bg) as [Hlo Hhi].
  assert (0 <= (curr_bg - 60) * Infusion.roc_m curr_bg prev_bg) as Hpos.
  { setoid_replace 0 with (0 * 0) by reflexivity. apply product_le; lra. }
  rewrite (max_nonneg_l _ Hpos).
  split; apply round1_mono.
  - rewrite !(Qmult_comm (curr_bg - 60)). apply Qmult_le_compat_r; lra.
  - rewrite !(Qmult_comm (curr_bg - 60)). apply Qmult_le_compat_r; lra.
Qed.

Lemma ongoing_rate_bounds_witness :
  exists r,
    Infusion.calc_ongoing_rate 150 160 2 = Returned r
    /\ Py.round1 ((150 - 60) * 0.014) <= r
    /\ r <= Py.round1 ((150 - 60) * 0.03).
Proof.
  assert (70 <= 150) as H70 by discriminate.
  assert (150 < 180 \/ 10 < 160 - 150) as Hoff by (left; reflexivity).
  exact (ongoing_rate_bounds 150 160 2 H70 Hoff).
Defined.

(** X3.  The escalation rule only ever raises the rate: from 70 mg/dL on
    the rate returned is never below the plain product [(curr_bg - 60) * m]
    of the rate-of-change multiplier, rounded to one decimal, and off the
    escalation rule it is that rounded product. *)
Theorem escalation_only_raises curr_bg prev_bg last_rate :
  70 <= curr_bg ->
  let plain := Py.round1 ((curr_bg - 60) * Infusion.roc_m curr_bg prev_bg) in
  exists r,
    Infusion.calc_ongoing_rate curr_bg prev_bg last_rate = Returned r
    /\ plain <= r
    /\ (curr_bg < 180 \/ 10 < prev_bg - curr_bg -> r = plain).
Proof.
  intros H70 plain. subst plain.
  rewrite (ongoing_from_70 _ _ _ H70).
  destruct (roc_m_range curr_bg prev_bg) as [Hlo _].
  assert (0 <= (curr_bg - 60) * Infusion.roc_m curr_bg prev_bg) as Hpos.
  { setoid_replace 0 with (0 * 0) by reflexivity. apply product_le; lra. }
  destruct (Infusion.escalates curr_bg prev_bg) eqn:E.
  - rewrite (final_m_escalated _ _ _ E). simpl Py.bind.
    eexists. split; [reflexivity |]. split.
    + apply round1_mono.
      eapply Qle_trans; [| apply max_l].
      apply product_le; [lra | lra | lra | apply max_l].
    + intros Hoff. apply escalates_false in Hoff. congruence.
  - rewrite (final_m_plain _ _ _ E). simpl Py.bind.
    eexists. split; [reflexivity |].
    rewrite (max_nonneg_l _ Hpos). split; [apply Qle_refl | reflexivity].
Qed.

Lemma escalation_only_raises_witness :
  exists r,
    Infusion.calc_ongoing_rate 200 205 3 = Returned r
    /\ Py.round1 ((200 - 60) * Infusion.roc_m 200 205) <= r
    /\ (200 < 180 \/ 10 < 205 - 200 ->
        r = Py.round1 ((200 - 60) * Infusion.roc_m 200 205)).
Proof.
  assert (70 <= 200) as H70 by discriminate.
  exact (escalation_only_raises 200 205 3 H70).
Defined.

(** X4.  A higher pump rate never lowers the new rate: [calc_ongoing_rate]
    is monotone in [last_rate] for every pair of readings. *)
Theorem monotone_in_last_rate curr_bg prev_bg last_rate last_rate' :
  last_rate <= last_rate' ->
  exists r r',
    Infusion.calc_ongoing_rate curr_bg prev_bg last_rate = Returned r
    /\ Infusion.calc_ongoing_rate curr_bg prev_bg last_rate' = Returned r'
    /\ r <= r'.
Proof.
  intros Hl.
  destruct (Qlt_le_dec curr_bg 70) as [Hlow | H70].
  - unfold Infusion.calc_ongoing_rate.
    rewrite (proj2 (ltb_true curr_bg 70) Hlow).
    exists 0, 0. repeat split. lra.
  - rewrite !(ongoing_from_70 _ _ _ H70).
    destruct (Infusion.escalates curr_bg prev_bg) eqn:E.
    + rewrite !(final_m_escalated _ _ _ E). simpl.
      eexists. eexists. split; [reflexivity |]. split; [reflexivity |].
      apply escalates_true in E. destruct E as [H180 _].
      apply round1_mono, max_mono; [| lra].
      destruct (escalated_product curr_bg last_rate
                  (Infusion.roc_m curr_bg prev_bg) H180) as [_ [_ [H | H]]];
        destruct (escalated_product curr_bg last_rate'
                    (Infusion.roc_m curr_bg prev_bg) H180) as [Hp [Hr _]];
        rewrite H; lra.
    + rewrite !(final_m_plain _ _ _ E). simpl.
      eexists. eexists. split; [reflexivity |]. split; [reflexivity |].
      apply Qle_refl.
Qed.

Lemma monotone_in_last_rate_witness :
  exists r r',
    Infusion.calc_ongoing_rate 200 205 1 = Returned r
    /\ Infusion.calc_ongoing_rate 200 205 3 = Returned r'
    /\ r <= r'.
Proof.
  assert (1 <= 3) as Hl by discriminate.
  exact (monotone_in_last_rate 200 205 1 3 Hl).
Defined.

(** ** Further properties of [calc_initial_rate_and_bolus] *)

Lemma initial_below_300 bg :
  bg < 300 ->
  Infusion.calc_initial_rate_and_bolus bg =
  Returned (Py.round1 (bg / 100), Py.round1 (bg / 100)).
Proof.
  intros H. unfold Infusion.calc_initial_rate_and_bolus, Py.geb.
  now rewrite (proj2 (leb_false 300 bg) H).
Qed.

Lemma initial_from_300 bg :
  300 <= bg ->
  Infusion.calc_initial_rate_and_bolus bg =
  Returned (Py.round1 (bg / 70), Py.round1 (bg / 70)).
Proof.
  intros H. unfold Infusion.calc_initial_rate_and_bolus, Py.geb.
  now rewrite (proj2 (leb_true 300 bg) H).
Qed.

Lemma div_100 x : x / 100 == x * (1 # 100).
Proof. reflexivity. Qed.

Lemma div_70 x : x / 70 == x * (1 # 70).
Proof. reflexivity. Qed.

(** X5.  A higher reading never gets a lower initial dose, also across the
    change of divisor at 300 mg/dL. *)
Theorem initial_dose_monotone bg bg' :
  bg <= bg' ->
  exists b b',
    Infusion.calc_initial_rate_and_bolus bg = Returned (b, b)
    /\ Infusion.calc_initial_rate_and_bolus bg' = Returned (b', b')
    /\ b <= b'.
Proof.
  intros Hle.
  destruct (Qlt_le_dec bg 300) as [H | H];
    destruct (Qlt_le_dec bg' 300) as [H' | H'];
    rewrite ?(initial_below_300 _ H), ?(initial_from_300 _ H),
            ?(initial_below_300 _ H'), ?(initial_from_300 _ H');
    try (exfalso; lra);
    (eexists; eexists; split; [reflexivity |]; split; [reflexivity |];
     apply round1_mono; rewrite ?div_100, ?div_70; lra).
Qed.

Lemma initial_dose_monotone_witness :
  exists b b',
    Infusion.calc_initial_rate_and_bolus 299 = Returned (b, b)
    /\ Infusion.calc_initial_rate_and_bolus 300 = Returned (b', b')
    /\ b <= b'.
Proof.
  assert (299 <= 300) as Hle by discriminate.
  exact (initial_dose_monotone 299 300 Hle).
Defined.

(** X6.  The change of divisor leaves a gap in the doses: below 300 mg/dL
    the bolus is at most 3.0 U, from 300 on it is at least 4.3 U. *)
Theorem initial_dose_jump_at_300 bg :
  exists b,
    Infusion.calc_initial_rate_and_bolus bg = Returned (b, b)
    /\ (bg < 300 -> b <= 3.0)
    /\ (300 <= bg -> 4.3 <= b).
Proof.
  destruct (Qlt_le_dec bg 300) as [H | H].
  - rewrite (initial_below_300 _ H). eexists. split; [reflexivity |].
    split; [intros _ | intros H'; lra].
    apply Qle_trans with (Py.round1 3); [| discriminate].
    apply round1_mono. rewrite div_100. lra.
  - rewrite (initial_from_300 _ H). eexists. split; [reflexivity |].
    split; [intros H'; lra | intros _].
    apply Qle_trans with (Py.round1 (300 / 70)); [discriminate |].
    apply round1_mono. rewrite !div_70. lra.
Qed.

(** ** The page of infusion.py *)

Lemma truthy_true x : Py.truthy x = true <-> ~ x == 0.
Proof.
  unfold Py.truthy. rewrite negb_true_iff, <- not_true_iff_false.
  now rewrite Qeq_bool_iff.
Qed.

Lemma truthy_false x : Py.truthy x = false <-> x == 0.
Proof.
  unfold Py.truthy. rewrite negb_false_iff. apply Qeq_bool_iff.
Qed.

(** X7.  The start page gives a dose exactly for a non-zero reading, and
    the bolus and the rate it shows are one number; a reading of 0 is taken
    as a blank and shows nothing. *)
Theorem start_mode_message init_bg :
  (init_bg == 0 -> Infusion.start_mode init_bg = Returned None)
  /\ (~ init_bg == 0 ->
      exists b,
        Infusion.calc_initial_rate_and_bolus init_bg = Returned (b, b)
        /\ Infusion.start_mode init_bg =
           Returned (Some (Infusion.GiveBolusThenStart b b))).
Proof.
  unfold Infusion.start_mode. split; intros H.
  - now rewrite (proj2 (truthy_false init_bg) H).
  - rewrite (proj2 (truthy_true init_bg) H).
    destruct (Qlt_le_dec init_bg 300) as [H' | H'].
    + rewrite (initial_below_300 _ H'). eexists. split; reflexivity.
    + rewrite (initial_from_300 _ H'). eexists. split; reflexivity.
Qed.

Lemma start_mode_message_witness :
  Infusion.start_mode 0 = Returned None
  /\ exists b,
       Infusion.calc_initial_rate_and_bolus 256 = Returned (b, b)
       /\ Infusion.start_mode 256 =
          Returned (Some (Infusion.GiveBolusThenStart b b)).
Proof.
  assert (0 == 0) as H0 by reflexivity.
  assert (~ 256 == 0) as H256 by discriminate.
  split.
  - exact (proj1 (start_mode_message 0) H0).
  - exact (proj2 (start_mode_message 256) H256).
Defined.

(** X8.  The adjust page with its three inputs filled in: below 70 mg/dL it
    shows the hypoglycaemia message; from 70 on it never does, and the rate
    it tells to set is the one of [calc_ongoing_rate], at least 0.1 U/h,
    beside the fall [prev_bg - curr_bg].  With an input at 0 it shows
    nothing. *)
Theorem adjust_mode_message curr_bg prev_bg last_rate :
  (curr_bg == 0 \/ prev_bg == 0 \/ last_rate == 0 ->
   Infusion.adjust_mode curr_bg prev_bg last_rate = Returned None)
  /\ (~ curr_bg == 0 -> ~ prev_bg == 0 -> ~ last_rate == 0 ->
      (curr_bg < 70 ->
       Infusion.adjust_mode curr_bg prev_bg last_rate =
       Returned (Some Infusion.Hypoglycaemia))
      /\ (70 <= curr_bg ->
          exists r,
            Infusion.calc_ongoing_rate curr_bg prev_bg last_rate = Returned r
            /\ 0.1 <= r
            /\ Infusion.adjust_mode curr_bg prev_bg last_rate =
               Returned (Some (Infusion.SetPump r (prev_bg - curr_bg))))).
Proof.
  unfold Infusion.adjust_mode. split.
  - intros [H | [H | H]]; apply truthy_false in H; rewrite H;
      rewrite ?andb_false_r; reflexivity.
  - intros Hc Hp Hl.
    rewrite (proj2 (truthy_true _) Hc), (proj2 (truthy_true _) Hp),
            (proj2 (truthy_true _) Hl).
    simpl andb. split; intros H.
    + unfold Infusion.calc_ongoing_rate.
      now rewrite (proj2 (ltb_true curr_bg 70) H).
    + rewrite (ongoing_from_70 _ _ _ H).
      destruct (final_m_returns curr_bg prev_bg last_rate) as [m Hm].
      rewrite Hm. simpl Py.bind.
      eexists. split; [reflexivity |].
      rewrite (proj2 (ltb_false curr_bg 70) H), andb_false_r.
      split; [| reflexivity].
      apply Qle_trans with (Py.round1 0.14); [discriminate |].
      apply round1_mono.
      apply Qle_trans with ((curr_bg - 60) * m); [| apply max_l].
      setoid_replace 0.14 with (10 * 0.014) by reflexivity.
      pose proof (final_m_floor _ _ _ _ Hm).
      apply product_le; lra.
Qed.

Lemma adjust_mode_message_witness :
  Infusion.adjust_mode 65 120 0 = Returned None
  /\ Infusion.adjust_mode 65 120 2.5 = Returned (Some Infusion.Hypoglycaemia)
  /\ exists r,
       Infusion.calc_ongoing_rate 150 160 2 = Returned r
       /\ 0.1 <= r
       /\ Infusion.adjust_mode 150 160 2 =
          Returned (Some (Infusion.SetPump r (160 - 150))).
Proof.
  assert (65 == 0 \/ 120 == 0 \/ 0 == 0) as Hblank
    by (right; right; reflexivity).
  assert (~ 65 == 0) as H65 by discriminate.
  assert (~ 120 == 0) as H120 by discriminate.
  assert (~ 2.5 == 0) as H25 by discriminate.
  assert (~ 150 == 0) as H150 by discriminate.
  assert (~ 160 == 0) as H160 by discriminate.
  assert (~ 2 == 0) as H2 by discriminate.
  assert (65 < 70) as Hlow by reflexivity.
  assert (70 <= 150) as H70 by discriminate.
  split; [| split].
  - exact (proj1 (adjust_mode_message 65 120 0) Hblank).
  - exact (proj1 (proj2 (adjust_mode_message 65 120 2.5) H65 H120 H25) Hlow).
  - exact (proj2 (proj2 (adjust_mode_message 150 160 2) H150 H160 H2) H70).
Defined.

(** ** The ongoing branch of iv_insulin_calculator.py *)

(** Follow the chain of tests of an equation [H : r = if c then _ else _],
    one test at a time, keeping the order fact of each branch taken and
    closing the branches the facts exclude. *)
Ltac walk H :=
  repeat (
    let E := fresh "E" in
    lazymatch type of H with
    | _ = (if ?a && _ then _ else _) =>
        destruct a eqn:E; cbn [andb] in H
    | _ = (if ?c then _ else _) =>
        destruct c eqn:E
    end;
    first [ apply leb_true in E | apply ltb_true in E
          | apply leb_false in E | apply ltb_false in E ];
    try (exfalso; lra)).

Lemma legacy_adaptive B l :
  70 <= B ->
  Legacy.adaptive B l =
  Returned (Legacy.rate_only ((B - 60) * (l / (B - 60) + 0.01))).
Proof.
  intros H. unfold Legacy.adaptive.
  rewrite div_nonzero by lra. reflexivity.
Qed.

(** The table on [delta] of the two middle bands. *)
Lemma mid_band_shape B d :
  (1 <= d /\ Legacy.mid_band B d = Legacy.rate_only ((B - 60) * 0.03))
  \/ (-20 <= d <= 0
      /\ Legacy.mid_band B d = Legacy.rate_only ((B - 60) * 0.02))
  \/ (-40 <= d <= -20.1
      /\ Legacy.mid_band B d = Legacy.rate_only ((B - 60) * 0.014))
  \/ ((0 < d < 1 \/ -20.1 < d < -20 \/ d < -40)
      /\ Legacy.mid_band B d =
         Legacy.mkOngoing (Some 0) Legacy.NoComment (Some Legacy.Minutes30)).
Proof.
  remember (Legacy.mid_band B d) as r eqn:Hr.
  unfold Legacy.mid_band, Py.geb, Py.gtb in Hr.
  walk Hr;
    first
      [ left; split; [lra | exact Hr]
      | right; left; split; [lra | exact Hr]
      | right; right; left; split; [lra | exact Hr]
      | right; right; right; split; [lra | exact Hr] ].
Qed.

(** The chain on [B], branch by branch. *)
Lemma titrate_shape B C l :
  (B < 70
   /\ Legacy.titrate B C l =
      Returned (Legacy.mkOngoing (Some 0)
                  (Legacy.GiveDextrose (Py.round1 ((100 - B) * 0.3)))
                  (Some Legacy.Minutes15)))
  \/ (70 <= B <= 110
      /\ Legacy.titrate B C l =
         Returned (Legacy.mkOngoing (Some 0) Legacy.ConsiderDextrose
                     (Some Legacy.Minutes30)))
  \/ ((110 < B < 110.1 \/ 139 < B < 139.1 \/ 179 < B < 179.1)
      /\ Legacy.titrate B C l =
         Returned (Legacy.mkOngoing None Legacy.NoComment None))
  \/ ((110.1 <= B <= 139 \/ 139.1 <= B <= 179)
      /\ Legacy.titrate B C l = Returned (Legacy.mid_band B (B - C)))
  \/ ((179.1 <= B <= 249 /\ -10 <= B - C \/ 249 < B /\ -40 <= B - C)
      /\ Legacy.titrate B C l =
         Returned (Legacy.rate_only ((B - 60) * (l / (B - 60) + 0.01))))
  \/ ((179.1 <= B <= 249 /\ B - C < -10 \/ 249 < B /\ B - C < -40)
      /\ exists k, (k = 0.03 \/ k = 0.02 \/ k = 0.014)
                   /\ Legacy.titrate B C l =
                      Returned (Legacy.rate_only ((B - 60) * k))).
Proof.
  remember (Legacy.titrate B C l) as r eqn:Hr.
  unfold Legacy.titrate, Py.geb, Py.gtb in Hr. cbv zeta in Hr.
  walk Hr;
    try rewrite legacy_adaptive in Hr by lra;
    first
      [ left; split; [lra | exact Hr]
      | right; left; split; [lra | exact Hr]
      | right; right; left; split; [lra | exact Hr]
      | right; right; right; left; split; [lra | exact Hr]
      | right; right; right; right; left; split; [lra | exact Hr]
      | right; right; right; right; right; split; [lra |];
        eexists; split; [| exact Hr]; auto ].
Qed.



(** X10.  In the two middle bands (110.1 to 139 and 139.1 to 179) the table
    on [delta = B - C] has holes: a rise of less than 1, a fall between 20
    and 20.1 and a fall of more than 40 reach the last branch, which sets the
    rate to 0 with a recheck in 30 minutes; on the rows of the table the
    rate is positive, between [(B - 60) * 0.014] and [(B - 60) * 0.03]. *)
Theorem legacy_mid_band_holes B C last_rate :
  110.1 <= B <= 139 \/ 139.1 <= B <= 179 ->
  (0 < B - C < 1 \/ -20.1 < B - C < -20 \/ B - C < -40 ->
   Legacy.titrate B C last_rate =
   Returned (Legacy.mkOngoing (Some 0) Legacy.NoComment
               (Some Legacy.Minutes30)))
  /\ (1 <= B - C \/ -20 <= B - C <= 0 \/ -40 <= B - C <= -20.1 ->
      exists r,
        Legacy.titrate B C last_rate = Returned (Legacy.rate_only r)
        /\ 0 < r
        /\ (B - 60) * 0.014 <= r <= (B - 60) * 0.03).
Proof.
  intros Hmid.
  destruct (titrate_shape B C last_rate)
    as [[H _] | [[H _] | [[H _] | [[_ ->] | [[H _] | [H _]]]]]];
    try (exfalso; lra).
  destruct (mid_band_shape B (B - C))
    as [[Hd ->] | [[Hd ->] | [[Hd ->] | [Hd ->]]]];
    (split; intros Hrow; [try (exfalso; lra); reflexivity |]);
    try (exfalso; lra);
    (eexists; split; [reflexivity | lra]).
Qed.

Lemma legacy_mid_band_holes_witness :
  Legacy.titrate 150 149.5 2 =
  Returned (Legacy.mkOngoing (Some 0) Legacy.NoComment (Some Legacy.Minutes30))
  /\ exists r,
       Legacy.titrate 150 149 2 = Returned (Legacy.rate_only r)
       /\ 0 < r
       /\ (150 - 60) * 0.014 <= r <= (150 - 60) * 0.03.
Proof.
  assert (110.1 <= 150 <= 139 \/ 139.1 <= 150 <= 179) as Hmid
    by (right; split; discriminate).
  assert (0 < 150 - 149.5 < 1 \/ -20.1 < 150 - 149.5 < -20
          \/ 150 - 149.5 < -40) as Hhole
    by (left; split; reflexivity).
  assert (1 <= 150 - 149 \/ -20 <= 150 - 149 <= 0
          \/ -40 <= 150 - 149 <= -20.1) as Hrow
    by (left; discriminate).
  split.
  - exact (proj1 (legacy_mid_band_holes 150 149.5 2 Hmid) Hhole).
  - exact (proj2 (legacy_mid_band_holes 150 149 2 Hmid) Hrow).
Defined.

Lemma ordered_with_itself (o : Legacy.ongoing) :
  (Legacy.new_rate o = None /\ Legacy.new_rate o = None)
  \/ exists r r',
       Legacy.new_rate o = Some r /\ Legacy.new_rate o = Some r'
       /\ r <= r' /\ Py.round1 r <= Py.round1 r'.
Proof.
  destruct (Legacy.new_rate o) as [r |]; [right | left; split; reflexivity].
  exists r, r. repeat split; apply Qle_refl.
Qed.

(** X11.  The ongoing branch of the script is monotone in the pump rate:
    with the same two readings a higher [last_rate] never gives a lower
    rate, computed or written, and changes neither the comment nor the
    recheck; the rate is set for the one pump rate when it is set for the
    other. *)
Theorem legacy_monotone_in_last_rate B C last_rate last_rate' :
  last_rate <= last_rate' ->
  exists o o',
    Legacy.titrate B C last_rate = Returned o
    /\ Legacy.titrate B C last_rate' = Returned o'
    /\ Legacy.note o = Legacy.note o'
    /\ Legacy.next_check o = Legacy.next_check o'
    /\ ((Legacy.new_rate o = None /\ Legacy.new_rate o' = None)
        \/ exists r r',
             Legacy.new_rate o = Some r /\ Legacy.new_rate o' = Some r'
             /\ r <= r' /\ Py.round1 r <= Py.round1 r').
Proof.
  intros Hl.
  destruct (titrate_shape B C last_rate)
    as [[H _] | [[H _] | [[H _] | [[H _] | [[H Ho] | [H _]]]]]].
  5: {
    destruct (titrate_shape B C last_rate')
      as [[H' _] | [[H' _] | [[H' _] | [[H' _] | [[_ Ho'] | [H' _]]]]]];
      try (exfalso; lra).
    rewrite Ho, Ho'. eexists. eexists.
    split; [reflexivity |]. split; [reflexivity |].
    split; [reflexivity |]. split; [reflexivity |].
    right. eexists. eexists.
    split; [reflexivity |]. split; [reflexivity |].
    assert ((B - 60) * (last_rate / (B - 60) + 0.01)
            <= (B - 60) * (last_rate' / (B - 60) + 0.01)) as Hle.
    { setoid_replace ((B - 60) * (last_rate / (B - 60) + 0.01))
        with (last_rate + 0.01 * (B - 60)) by (field; lra).
      setoid_replace ((B - 60) * (last_rate' / (B - 60) + 0.01))
        with (last_rate' + 0.01 * (B - 60)) by (field; lra).
      lra. }
    split; [exact Hle | now apply round1_mono]. }
  all: remember (Legacy.titrate B C last_rate') as r' eqn:Hr';
    remember (Legacy.titrate B C last_rate) as r eqn:Hr;
    unfold Legacy.titrate, Py.geb, Py.gtb in Hr, Hr'; cbv zeta in Hr, Hr';
    walk Hr; cbn [andb] in Hr'; subst r r';
    (eexists; eexists;
     split; [reflexivity |]; split; [reflexivity |];
     split; [reflexivity |]; split; [reflexivity |];
     apply ordered_with_itself).
Qed.

Lemma legacy_monotone_in_last_rate_witness :
  exists o o',
    Legacy.titrate 200 195 1 = Returned o
    /\ Legacy.titrate 200 195 3 = Returned o'
    /\ Legacy.note o = Legacy.note o'
    /\ Legacy.next_check o = Legacy.next_check o'
    /\ ((Legacy.new_rate o = None /\ Legacy.new_rate o' = None)
        \/ exists r r',
             Legacy.new_rate o = Some r /\ Legacy.new_rate o' = Some r'
             /\ r <= r' /\ Py.round1 r <= Py.round1 r').
Proof.
  assert (1 <= 3) as Hl by discriminate.
  exact (legacy_monotone_in_last_rate 200 195 1 3 Hl).
Defined.

(** X12.  With a non-negative pump rate no rate the ongoing branch computes
    is negative, and neither is the rounded rate the script writes. *)
Theorem legacy_rate_nonnegative B C last_rate :
  0 <= last_rate ->
  exists o,
    Legacy.titrate B C last_rate = Returned o
    /\ forall r, Legacy.new_rate o = Some r -> 0 <= r /\ 0 <= Py.round1 r.
Proof.
  intros Hl.
  assert (forall r x : Q, 0 <= x -> Some x = Some r ->
                          0 <= r /\ 0 <= Py.round1 r) as Hsome.
  { intros r x Hx [= <-]. split; [exact Hx | now apply round1_nonneg]. }
  destruct (titrate_shape B C last_rate)
    as [[H ->] | [[H ->] | [[H ->] | [[H ->] | [[H ->] | [H [k [Hk ->]]]]]]]];
    eexists; (split; [reflexivity |]); intros r; simpl Legacy.new_rate.
  - apply Hsome. lra.
  - apply Hsome. lra.
  - discriminate.
  - destruct (mid_band_shape B (B - C))
      as [[_ ->] | [[_ ->] | [[_ ->] | [_ ->]]]];
      simpl Legacy.new_rate; apply Hsome; lra.
  - apply Hsome.
    setoid_replace ((B - 60) * (last_rate / (B - 60) + 0.01))
      with (last_rate + 0.01 * (B - 60)) by (field; lra).
    lra.
  - apply Hsome. destruct Hk as [-> | [-> | ->]]; lra.
Qed.

Lemma legacy_rate_nonnegative_witness :
  exists o,
    Legacy.titrate 200 195 3 = Returned o
    /\ forall r, Legacy.new_rate o = Some r -> 0 <= r /\ 0 <= Py.round1 r.
Proof.
  assert (0 <= 3) as Hl by discriminate.
  exact (legacy_rate_nonnegative 200 195 3 Hl).
Defined.

(** X13.  Below 70 mg/dL the script advises a dextrose volume of
    [round((100 - B) * 0.3, 1)] ml, which is at least 9 ml, and at most 30 ml
    for a non-negative reading. *)
Theorem legacy_dextrose_volume B C last_rate :
  B < 70 ->
  exists ml,
    Legacy.titrate B C last_rate =
    Returned (Legacy.mkOngoing (Some 0) (Legacy.GiveDextrose ml)
                (Some Legacy.Minutes15))
    /\ 9 <= ml
    /\ (0 <= B -> ml <= 30).
Proof.
  intros Hlow.
  destruct (titrate_shape B C last_rate)
    as [[_ ->] | [[H _] | [[H _] | [[H _] | [[H _] | [H _]]]]]];
    try (exfalso; lra).
  eexists. split; [reflexivity |]. split.
  - apply Qle_trans with (Py.round1 9); [discriminate |].
    apply round1_mono. lra.
  - intros H0. apply Qle_trans with (Py.round1 30); [| discriminate].
    apply round1_mono. lra.
Qed.

Lemma legacy_dextrose_volume_witness :
  exists ml,
    Legacy.titrate 65 120 2 =
    Returned (Legacy.mkOngoing (Some 0) (Legacy.GiveDextrose ml)
                (Some Legacy.Minutes15))
    /\ 9 <= ml
    /\ (0 <= 65 -> ml <= 30).
Proof.
  assert (65 < 70) as Hlow by reflexivity.
  exact (legacy_dextrose_volume 65 120 2 Hlow).
Defined.



(** ** The initial branch and the pages of iv_insulin_calculator.py *)

Lemma legacy_initial_below_300 A :
  A < 300 ->
  Legacy.initial A = Returned (Py.round (A / 100), Py.round1 (A / 100)).
Proof.
  intros H. unfold Legacy.initial.
  now rewrite (proj2 (ltb_true A 300) H).
Qed.

Lemma legacy_initial_from_300 A :
  300 <= A ->
  Legacy.initial A = Returned (Py.round (A / 70), Py.round1 (A / 70)).
Proof.
  intros H. unfold Legacy.initial.
  now rewrite (proj2 (ltb_false A 300) H).
Qed.

Lemma rounds_close q : Qabs (inject_Z (Py.round q) - Py.round1 q) <= 0.55.
Proof.
  destruct (round_near q) as [Hlo Hhi].
  pose proof (round1_near q) as Hnear.
  apply Qabs_Qle_condition in Hnear. destruct Hnear as [Hlo1 Hhi1].
  apply Qabs_Qle_condition. split; lra.
Qed.

(** X15.  The two calculators agree on the initial infusion rate for every
    reading; the integer bolus of the script stays within 0.55 U of it. *)
Theorem initial_rate_variants_agree A :
  exists bolus rate,
    Legacy.initial A = Returned (bolus, rate)
    /\ Infusion.calc_initial_rate_and_bolus A = Returned (rate, rate)
    /\ Qabs (inject_Z bolus - rate) <= 0.55.
Proof.
  destruct (Qlt_le_dec A 300) as [H | H].
  - rewrite (legacy_initial_below_300 _ H), (initial_below_300 _ H).
    eexists. eexists. split; [reflexivity |]. split; [reflexivity |].
    apply rounds_close.
  - rewrite (legacy_initial_from_300 _ H), (initial_from_300 _ H).
    eexists. eexists. split; [reflexivity |]. split; [reflexivity |].
    apply rounds_close.
Qed.

Lemma legacy_titrate_returns B C l :
  exists o, Legacy.titrate B C l = Returned o.
Proof.
  destruct (titrate_shape B C l)
    as [[_ ->] | [[_ ->] | [[_ ->] | [[_ ->] | [[_ ->] | [_ [k [_ ->]]]]]]]];
    eexists; reflexivity.
Qed.

(** X16.  Which page the script writes.  A non-zero initial reading [A]
    always gives the initial page, whatever the other inputs; with [A] at 0
    the ongoing page needs both [B] and [C] non-zero, and otherwise the
    script only asks for input.  No run raises. *)
Theorem legacy_script_pages A B C last_rate :
  (~ A == 0 ->
   exists bolus rate,
     Legacy.initial A = Returned (bolus, rate)
     /\ Legacy.script A B C last_rate =
        Returned (Legacy.InitialPage bolus rate))
  /\ (A == 0 -> B == 0 \/ C == 0 ->
      Legacy.script A B C last_rate = Returned Legacy.InfoPage)
  /\ (A == 0 -> ~ B == 0 -> ~ C == 0 ->
      exists o,
        Legacy.titrate B C last_rate = Returned o
        /\ Legacy.script A B C last_rate =
           Returned (Legacy.OngoingPage
                       (option_map Py.round1 (Legacy.new_rate o))
                       (Legacy.note o) (Legacy.next_check o))).
Proof.
  unfold Legacy.script. split; [| split].
  - intros HA. rewrite (proj2 (truthy_true A) HA).
    destruct (Qlt_le_dec A 300) as [H | H].
    + rewrite (legacy_initial_below_300 _ H).
      eexists. eexists. split; reflexivity.
    + rewrite (legacy_initial_from_300 _ H).
      eexists. eexists. split; reflexivity.
  - intros HA HBC. rewrite (proj2 (truthy_false A) HA).
    destruct HBC as [H | H]; rewrite (proj2 (truthy_false _) H);
      rewrite ?andb_false_r; reflexivity.
  - intros HA HB HC.
    rewrite (proj2 (truthy_false A) HA), (proj2 (truthy_true B) HB),
            (proj2 (truthy_true C) HC).
    destruct (legacy_titrate_returns B C last_rate) as [o Ho].
    exists o. split; [exact Ho |]. now rewrite Ho.
Qed.

Lemma legacy_script_pages_witness :
  (exists bolus rate,
     Legacy.initial 256 = Returned (bolus, rate)
     /\ Legacy.script 256 65 120 2 = Returned (Legacy.InitialPage bolus rate))
  /\ Legacy.script 0 65 0 2 = Returned Legacy.InfoPage
  /\ exists o,
       Legacy.titrate 65 120 2 = Returned o
       /\ Legacy.script 0 65 120 2 =
          Returned (Legacy.OngoingPage
                      (option_map Py.round1 (Legacy.new_rate o))
                      (Legacy.note o) (Legacy.next_check o)).
Proof.
  assert (~ 256 == 0) as H256 by discriminate.
  assert (0 == 0) as H0 by reflexivity.
  assert (65 == 0 \/ 0 == 0) as Hblank by (right; reflexivity).
  assert (~ 65 == 0) as H65 by discriminate.
  assert (~ 120 == 0) as H120 by discriminate.
  split; [| split].
  - exact (proj1 (legacy_script_pages 256 65 120 2) H256).
  - exact (proj1 (proj2 (legacy_script_pages 0 65 0 2)) H0 Hblank).
  - exact (proj2 (proj2 (legacy_script_pages 0 65 120 2)) H0 H65 H120).
Defined.

(** X17.  The tables on [delta] of the two high bands have holes as well: in
    179.1 to 249 a fall between 10 and 11 or between 40 and 41, and above
    249 a fall between 40 and 41 or between 80 and 81, reach the last
    branch, the multiplier 0.014 meant for the steepest falls, while the
    rows next to them give 0.03 or 0.02. *)
Theorem legacy_high_band_holes B C last_rate :
  (179.1 <= B <= 249 ->
   (-11 < B - C < -10 \/ -41 < B - C < -40 \/ B - C < -80 ->
    Legacy.titrate B C last_rate =
    Returned (Legacy.rate_only ((B - 60) * 0.014)))
   /\ (-40 <= B - C <= -11 ->
       Legacy.titrate B C last_rate =
       Returned (Legacy.rate_only ((B - 60) * 0.03)))
   /\ (-80 <= B - C <= -41 ->
       Legacy.titrate B C last_rate =
       Returned (Legacy.rate_only ((B - 60) * 0.02))))
  /\ (249 < B ->
      (-41 < B - C < -40 \/ -81 < B - C < -80 \/ B - C < -120 ->
       Legacy.titrate B C last_rate =
       Returned (Legacy.rate_only ((B - 60) * 0.014)))
      /\ (-80 <= B - C <= -41 ->
          Legacy.titrate B C last_rate =
          Returned (Legacy.rate_only ((B - 60) * 0.03)))
      /\ (-120 <= B - C <= -81 ->
          Legacy.titrate B C last_rate =
          Returned (Legacy.rate_only ((B - 60) * 0.02)))).
Proof.
  remember (Legacy.titrate B C last_rate) as r eqn:Hr.
  unfold Legacy.titrate, Py.geb, Py.gtb in Hr. cbv zeta in Hr.
  split; intros HB; (split; [| split]); intros Hd;
    walk Hr; exact Hr.
Qed.

Lemma legacy_high_band_holes_witness :
  Legacy.titrate 200 210.5 2 = Returned (Legacy.rate_only ((200 - 60) * 0.014))
  /\ Legacy.titrate 200 211 2 = Returned (Legacy.rate_only ((200 - 60) * 0.03))
  /\ Legacy.titrate 300 340.5 2 =
     Returned (Legacy.rate_only ((300 - 60) * 0.014)).
Proof.
  assert (179.1 <= 200 <= 249) as HB by (split; discriminate).
  assert (249 < 300) as HB' by reflexivity.
  assert (-11 < 200 - 210.5 < -10 \/ -41 < 200 - 210.5 < -40
          \/ 200 - 210.5 < -80) as Hhole by (left; split; reflexivity).
  assert (-40 <= 200 - 211 <= -11) as Hrow by (split; discriminate).
  assert (-41 < 300 - 340.5 < -40 \/ -81 < 300 - 340.5 < -80
          \/ 300 - 340.5 < -120) as Hhole' by (left; split; reflexivity).
  split; [| split].
  - exact (proj1 (proj1 (legacy_high_band_holes 200 210.5 2) HB) Hhole).
  - exact (proj1 (proj2 (proj1 (legacy_high_band_holes 200 211 2) HB)) Hrow).
  - exact (proj1 (proj2 (legacy_high_band_holes 300 340.5 2) HB') Hhole').
Defined.

(** ** The two calculators side by side *)


